(** * FINITY front end: route shell and embedded-dashboard pages

    A shallow embedding of [src/App.jsx], of the dashboard scenes
    ([scenes/crossborder/index.jsx], the stock-news board and the portfolio
    optimiser) and of the "About Us" page.  A React function component is a
    function from the value of its [useState] cell to the element tree it
    returns; an event handler is a function on the world it runs in; the
    router and the identity provider are modelled as far as [App.jsx] uses
    them. *)

From Stdlib Require Import String Ascii List Bool Arith ZArith Lia.
Import ListNotations.
Open Scope string_scope.

(** ** The browser as the handlers see it *)

(** One call [window.open(url, target, features)]. *)
Record OpenCall : Type := mkOpenCall {
  url : string;
  target : string;
  features : string
}.

(** What a mounted dashboard page can touch: its single [useState] cell
    ([iframeError] in two scenes, [dashboardError] in the third) and the trace
    of effects it caused in the browser.  The only effect any handler of the
    repository performs is [window.open]. *)
Record World : Type := mkWorld {
  loadError : bool;
  effects : list OpenCall
}.

Definition Handler : Type := World -> World.

(** The setter returned by [useState]. *)
Definition setState (b : bool) : Handler :=
  fun w => {| loadError := b; effects := effects w |}.

Definition window_open (u t f : string) : Handler :=
  fun w => {| loadError := loadError w;
              effects := effects w ++ [mkOpenCall u t f] |}.

(** [useState(false)]: a (re)mounted component starts from [false]; what the
    browser already did stays done. *)
Definition mount (w : World) : World :=
  {| loadError := false; effects := effects w |}.

Definition initial : World := {| loadError := false; effects := [] |}.

(** ** Element trees *)

(** The components [App.jsx] and the scenes import; the ones whose source is
    not modelled stay opaque leaves of the tree. *)
Inductive Component : Type :=
| Topbar | Sidebar (isSidebar : bool)
| Dashboard | PortfolioOptimization | Invoices | Contacts | Bar | Form | Line
| FAQ | Calendar | Chatbot | MutualTear | GdpDashboard | CrossBorder
| CssBaseline | Button (label : string) | UserButton
| SignIn | SignUp (path : string) (signUpFields : list (string * string * string))
| RedirectToSignIn
| Header (title : string).

Definition Style : Type := list (string * string).

#[local] Set Warnings "-register-all".

Inductive VNode : Type :=
| elem (tag className : string) (style : Style) (children : list VNode)
| iframe (src : string) (onError : Handler) (style : Style) (sandbox : string)
| txt (tag className text : string)
| button (onClick : Handler) (className text : string)
| component (c : Component).

Definition div := elem "div".
Definition p := txt "p".

(** Every node of a tree, parents before children, in document order. *)
Fixpoint nodes (v : VNode) : list VNode :=
  v :: match v with
       | elem _ _ _ cs => flat_map nodes cs
       | _ => []
       end.

Record Frame : Type := mkFrame {
  frame_src : string;
  frame_onError : Handler;
  frame_sandbox : string
}.

Definition as_frame (v : VNode) : list Frame :=
  match v with
  | iframe s h _ sb => [mkFrame s h sb]
  | _ => []
  end.

(** The inline frames a tree renders. *)
Definition iframes (v : VNode) : list Frame := flat_map as_frame (nodes v).

(** A fallback panel: the block holding one message paragraph followed by one
    button. *)
Record Panel : Type := mkPanel {
  panel_message : string;
  panel_action : Handler;
  panel_label : string
}.

Definition as_panel (v : VNode) : list Panel :=
  match v with
  | elem _ _ _ [txt "p" _ msg; button h _ lbl] => [mkPanel msg h lbl]
  | _ => []
  end.

Definition panels (v : VNode) : list Panel := flat_map as_panel (nodes v).

Definition as_component (v : VNode) : list Component :=
  match v with
  | component c => [c]
  | _ => []
  end.

Definition components (v : VNode) : list Component :=
  flat_map as_component (nodes v).

Definition as_text (tag : string) (v : VNode) : list string :=
  match v with
  | txt t _ s => if String.eqb t tag then [s] else []
  | _ => []
  end.

Definition texts (tag : string) (v : VNode) : list string :=
  flat_map (as_text tag) (nodes v).

Definition as_button (v : VNode) : list (Handler * string) :=
  match v with
  | button h _ lbl => [(h, lbl)]
  | _ => []
  end.

Definition buttons (v : VNode) : list (Handler * string) :=
  flat_map as_button (nodes v).

(** ** The dashboard scenes *)

Definition frame_style : Style :=
  [("width", "100%"); ("height", "100%");
   ("border", "1px solid #ddd"); ("borderRadius", "8px")].

(** [src/scenes/crossborder/index.jsx] *)
Module Scene_CrossBorder.

Definition dashboardUrl : string :=
  "https://itemcrossbordercomplience.streamlit.app/?embed=true".

Definition setDashboardError : bool -> Handler := setState.

Definition handleDashboardError : Handler := setDashboardError true.

Definition openDashboardInNewTab : Handler :=
  window_open dashboardUrl "_blank" "noopener,noreferrer".

Definition CrossBorder (dashboardError : bool) : VNode :=
  div "p-4" []
    [ if negb dashboardError then
        div "relative" [("height", "600px")]
          [ iframe dashboardUrl handleDashboardError frame_style
              "allow-same-origin allow-scripts allow-forms allow-popups" ]
      else
        div "text-center p-8 border rounded-lg" []
          [ p "mb-4" "Unable to embed the GDP Dashboard directly.";
            button openDashboardInNewTab
              "px-4 py-2 bg-blue-500 text-white rounded hover:bg-blue-600 transition-colors"
              "Open in New Tab" ] ].

End Scene_CrossBorder.

(** The stock-news board ([NewsBoard]). *)
Module Scene_NewsBoard.

Definition stockNewsUrl : string :=
  "https://web-news-iwhdvddvapstytxauebj4u.streamlit.app/?embed=true".

Definition setIframeError : bool -> Handler := setState.

Definition handleIframeError : Handler := setIframeError true.

Definition openInNewTab : Handler :=
  window_open stockNewsUrl "_blank" "noopener,noreferrer".

Definition NewsBoard (iframeError : bool) : VNode :=
  div "p-4" []
    [ if negb iframeError then
        div "relative" [("height", "600px")]
          [ iframe stockNewsUrl handleIframeError frame_style
              "allow-same-origin allow-scripts allow-forms allow-popups" ]
      else
        div "text-center p-8 border rounded-lg" []
          [ p "mb-4" "Unable to embed Stock News directly.";
            button openInNewTab
              "px-4 py-2 bg-blue-500 text-white rounded hover:bg-blue-600 transition-colors"
              "Open in New Tab" ] ].

End Scene_NewsBoard.

(** The portfolio optimiser ([PortfolioOptimization]). *)
Module Scene_PortfolioOptimization.

Definition streamlitUrl : string :=
  "https://ieteportfoliooptimisation.streamlit.app/?embed=true".

Definition setIframeError : bool -> Handler := setState.

Definition handleIframeError : Handler := setIframeError true.

Definition openInNewTab : Handler :=
  window_open streamlitUrl "_blank" "noopener,noreferrer".

Definition PortfolioOptimization (iframeError : bool) : VNode :=
  div "p-4" []
    [ if negb iframeError then
        div "relative" [("height", "600px")]
          [ iframe streamlitUrl handleIframeError frame_style
              "allow-same-origin allow-scripts allow-forms allow-popups" ]
      else
        div "text-center p-8 border rounded-lg" []
          [ p "mb-4" "Unable to embed the Portfolio Optimizer directly.";
            button openInNewTab
              "px-4 py-2 bg-blue-500 text-white rounded hover:bg-blue-600 transition-colors"
              "Open in New Tab" ] ].

End Scene_PortfolioOptimization.

(** Modelled from the spec: the GDP scene ([./scenes/gdp], imported by
    [App.jsx]) is not among the sources.  The spec describes the four
    dashboard scenes as one pattern in which only the URL and the names
    change: an inline frame on one fixed URL with the permission set
    [allow-same-origin allow-scripts allow-forms allow-popups], and on a load
    failure a fallback panel whose one action opens the same URL in a new
    top-level browsing context.  The URL and the wording of the panel are not
    given, so they are parameters. *)
Module Scene_GdpDashboard.

Definition GdpDashboard (gdpUrl gdpMessage : string) (dashboardError : bool)
  : VNode :=
  div "p-4" []
    [ if negb dashboardError then
        div "relative" [("height", "600px")]
          [ iframe gdpUrl (setState true) frame_style
              "allow-same-origin allow-scripts allow-forms allow-popups" ]
      else
        div "text-center p-8 border rounded-lg" []
          [ p "mb-4" gdpMessage;
            button (window_open gdpUrl "_blank" "noopener,noreferrer")
              "px-4 py-2 bg-blue-500 text-white rounded hover:bg-blue-600 transition-colors"
              "Open in New Tab" ] ].

End Scene_GdpDashboard.

(** ** A mounted dashboard page and the events it receives *)

Inductive DashboardPage : Type :=
| NewsPage | PortfolioPage | CrossBorderPage | GdpPage.

(** What can happen to a mounted page: the frame reports a load error, the
    user clicks the button of the fallback panel, or React unmounts the page
    and mounts it again. *)
Inductive Event : Type := FrameError | FallbackClick | Remount.

Inductive Mode : Type := Embedding | Fallback.

Definition mode (w : World) : Mode :=
  if loadError w then Fallback else Embedding.

Definition sandbox_permissions : string :=
  "allow-same-origin allow-scripts allow-forms allow-popups".

Section Dashboards.

Variables gdpUrl gdpMessage : string.

Definition scene (pg : DashboardPage) : bool -> VNode :=
  match pg with
  | NewsPage => Scene_NewsBoard.NewsBoard
  | PortfolioPage => Scene_PortfolioOptimization.PortfolioOptimization
  | CrossBorderPage => Scene_CrossBorder.CrossBorder
  | GdpPage => Scene_GdpDashboard.GdpDashboard gdpUrl gdpMessage
  end.

(** The URL constant each scene declares. *)
Definition dashboard_url (pg : DashboardPage) : string :=
  match pg with
  | NewsPage => Scene_NewsBoard.stockNewsUrl
  | PortfolioPage => Scene_PortfolioOptimization.streamlitUrl
  | CrossBorderPage => Scene_CrossBorder.dashboardUrl
  | GdpPage => gdpUrl
  end.

Definition render (pg : DashboardPage) (w : World) : VNode :=
  scene pg (loadError w).

(** An event runs the handler that the rendered tree attached to its target;
    it cannot occur when the tree holds no such target. *)
Definition dispatch (pg : DashboardPage) (e : Event) (w : World)
  : option World :=
  match e with
  | FrameError =>
      match iframes (render pg w) with
      | f :: _ => Some (frame_onError f w)
      | [] => None
      end
  | FallbackClick =>
      match panels (render pg w) with
      | pn :: _ => Some (panel_action pn w)
      | [] => None
      end
  | Remount => Some (mount w)
  end.

(** A page's life: a sequence of events from its first mount; an event
    without a target changes nothing. *)
Fixpoint run (pg : DashboardPage) (es : list Event) (w : World) : World :=
  match es with
  | [] => w
  | e :: es' =>
      match dispatch pg e w with
      | Some w' => run pg es' w'
      | None => run pg es' w
      end
  end.

End Dashboards.

(** The "About Us" page ([src/scenes/line/index.jsx]): no state, no handler.
    The tree keeps the header and the headings; the prose paragraphs and the
    team entries between them carry no behaviour and are left out. *)
Module Scene_Line.

Definition Line : VNode :=
  div "p-8 bg-gray-900 min-h-screen" []
    [ component (Header "About Us");
      div "text-gray-100 mt-8 space-y-6" []
        [ txt "h1" "text-4xl font-bold text-blue-400" "Welcome to FINITY";
          txt "h2" "text-2xl font-semibold text-blue-300" "Our Services";
          txt "h2" "text-2xl font-semibold text-blue-300" "Meet Our Team";
          txt "h2" "text-2xl font-bold text-blue-400" "Welcome to FINITY" ] ].

End Scene_Line.

(** ** The routing library

    [Routes] and [Route] come from react-router (version 6).  The model keeps
    what the library documents for the patterns [App.jsx] uses: a pattern is
    matched against the whole pathname without regard to ASCII case and to
    trailing slashes, a pattern ending in [/*] also matches everything under
    it, [*] matches every pathname, and among the routes that match the one
    with the highest score is rendered, earlier routes first on a tie.  A
    pathname holds no line terminator. *)

Definition is_slash (c : ascii) : bool := Ascii.eqb c "/"%char.

Definition toLowerCase_ascii (c : ascii) : ascii :=
  let n := nat_of_ascii c in
  if ((65 <=? n) && (n <=? 90))%nat then ascii_of_nat (n + 32) else c.

Fixpoint toLowerCase (s : string) : string :=
  match s with
  | EmptyString => EmptyString
  | String c s' => String (toLowerCase_ascii c) (toLowerCase s')
  end.

(** [strip_prefix pre s = Some rest] when [s] is [pre] followed by [rest]. *)
Fixpoint strip_prefix (pre s : string) : option string :=
  match pre, s with
  | EmptyString, _ => Some s
  | String a pre', String b s' =>
      if Ascii.eqb a b then strip_prefix pre' s' else None
  | String _ _, EmptyString => None
  end.

Fixpoint all_slashes (s : string) : bool :=
  match s with
  | EmptyString => true
  | String c s' => is_slash c && all_slashes s'
  end.

Fixpoint drop_slashes (l : list ascii) : list ascii :=
  match l with
  | c :: l' => if is_slash c then drop_slashes l' else l
  | [] => []
  end.

Definition endsWithStar (path : string) : bool :=
  match rev (list_ascii_of_string path) with
  | c :: _ => Ascii.eqb c "*"%char
  | [] => false
  end.

(** The literal part of a pattern: without a final [*] and the slashes before
    it, and with exactly one leading slash. *)
Definition literal (path : string) : string :=
  let r := rev (list_ascii_of_string path) in
  let r := if endsWithStar path then tl r else r in
  let body := drop_slashes (rev (drop_slashes r)) in
  String "/"%char (string_of_list_ascii body).

Definition under (rest : string) : bool :=
  match rest with
  | EmptyString => true
  | String c _ => is_slash c
  end.

Definition matchPath (path pathname : string) : bool :=
  match strip_prefix (toLowerCase (literal path)) (toLowerCase pathname) with
  | None => false
  | Some rest =>
      if endsWithStar path then
        if String.eqb path "*" || String.eqb path "/*" then true
        else under rest
      else all_slashes rest
  end.

(** The segments of a pattern, as [path.split("/")] gives them. *)
Fixpoint split_slash (s : string) (cur : string) : list string :=
  match s with
  | EmptyString => [cur]
  | String c s' =>
      if is_slash c then cur :: split_slash s' EmptyString
      else split_slash s' (cur ++ String c EmptyString)
  end.

Definition is_word_char (c : ascii) : bool :=
  let n := nat_of_ascii c in
  (((48 <=? n) && (n <=? 57)) || ((65 <=? n) && (n <=? 90))
   || ((97 <=? n) && (n <=? 122)) || (n =? 95) || (n =? 45))%nat.

Fixpoint all_word_chars (s : string) : bool :=
  match s with
  | EmptyString => true
  | String c s' => is_word_char c && all_word_chars s'
  end.

Definition is_param (seg : string) : bool :=
  match seg with
  | String ":" (String c s') => all_word_chars (String c s')
  | _ => false
  end.

Definition isSplat (seg : string) : bool := String.eqb seg "*".

Open Scope Z_scope.

(** A route of [Routes] sits below the root, so a relative pattern is scored
    as [/pattern]. *)
Definition joined (path : string) : string :=
  match path with
  | String "/" _ => path
  | _ => String "/"%char path
  end.

Definition computeScore (path : string) : Z :=
  let segments := split_slash (joined path) EmptyString in
  let initialScore :=
    Z.of_nat (length segments)
    + (if existsb isSplat segments then -2 else 0) in
  fold_left
    (fun score segment =>
       score + (if is_param segment then 3
                else if String.eqb segment "" then 1
                else 10))
    (filter (fun s => negb (isSplat s)) segments)
    initialScore.

Close Scope Z_scope.

Record Route : Type := mkRoute {
  route_path : string;
  element : VNode
}.

(** Insertion by decreasing score; [r] comes from before every route of [l]
    and stays before those that score the same. *)
Fixpoint insert_ranked (r : Route) (l : list Route) : list Route :=
  match l with
  | [] => [r]
  | r' :: l' =>
      if Z.leb (computeScore (route_path r')) (computeScore (route_path r))
      then r :: l
      else r' :: insert_ranked r l'
  end.

Definition rankRouteBranches (routes : list Route) : list Route :=
  fold_right insert_ranked [] routes.

(** [<Routes>]: the element of the best route that matches, or nothing. *)
Definition Routes (routes : list Route) (pathname : string) : list VNode :=
  match find (fun r => matchPath (route_path r) pathname)
             (rankRouteBranches routes) with
  | Some r => [element r]
  | None => []
  end.

(** ** The identity provider

    [SignedIn] renders its children for a signed-in user, [SignedOut] for a
    signed-out one; neither does while the session is still loading. *)

Inductive AuthState : Type := AuthLoading | AuthSignedIn | AuthSignedOut.

Definition SignedIn (auth : AuthState) (children : list VNode) : list VNode :=
  match auth with
  | AuthSignedIn => children
  | _ => []
  end.

Definition SignedOut (auth : AuthState) (children : list VNode) : list VNode :=
  match auth with
  | AuthSignedOut => children
  | _ => []
  end.

(** ** [src/App.jsx] *)

Definition signedInRoutes : list Route :=
  [ mkRoute "/" (component Dashboard);
    mkRoute "/contacts" (component Contacts);
    mkRoute "/invoices" (component Invoices);
    mkRoute "/portfolio" (component PortfolioOptimization);
    mkRoute "/mutualfunds" (component MutualTear);
    mkRoute "/gdp" (component GdpDashboard);
    mkRoute "/crossborder" (component CrossBorder);
    mkRoute "/form" (component Form);
    mkRoute "/bar" (component Bar);
    mkRoute "/pie" (component Chatbot);
    mkRoute "/line" (component Line);
    mkRoute "/faq" (component FAQ);
    mkRoute "/calendar" (component Calendar) ].

Definition signUpFields_App : list (string * string * string) :=
  [ ("name", "text", "Full Name");
    ("email_address", "email", "Email");
    ("password", "password", "Password");
    ("age", "number", "Age");
    ("gender", "select", "Gender") ].

Definition signedOutRoutes : list Route :=
  [ mkRoute "/sign-in/*" (component SignIn);
    mkRoute "/sign-up/*" (component (SignUp "/sign-up" signUpFields_App));
    mkRoute "*" (component RedirectToSignIn) ].

Definition App (auth : AuthState) (isSidebar : bool) (pathname : string)
  : VNode :=
  elem "ColorModeContext.Provider" "" []
    [ elem "ThemeProvider" "" []
        [ component CssBaseline;
          div "app" []
            (SignedIn auth
               [ component (Sidebar isSidebar);
                 elem "main" "content" []
                   ([ component Topbar;
                      div "" [("display", "flex");
                              ("justifyContent", "flex-end");
                              ("padding", "10px")]
                        [ component UserButton;
                          component (Button "Sign Out") ] ]
                    ++ Routes signedInRoutes pathname) ]
             ++ SignedOut auth
               [ div "" [("display", "flex"); ("justifyContent", "center");
                         ("alignItems", "center"); ("height", "100vh")]
                   (Routes signedOutRoutes pathname) ]) ] ].

(** What the tree shows once React has rendered the components whose source
    is at hand; [iframeError] is the state cell of the routed scene. *)
Definition implementation (iframeError : bool) (c : Component)
  : option VNode :=
  match c with
  | PortfolioOptimization =>
      Some (Scene_PortfolioOptimization.PortfolioOptimization iframeError)
  | CrossBorder => Some (Scene_CrossBorder.CrossBorder iframeError)
  | Line => Some Scene_Line.Line
  | _ => None
  end.

Fixpoint expand (impl : Component -> option VNode) (v : VNode) : VNode :=
  match v with
  | elem t c s cs => elem t c s (map (expand impl) cs)
  | component c =>
      match impl c with
      | Some v' => v'
      | None => v
      end
  | _ => v
  end.

Definition screen (auth : AuthState) (isSidebar : bool) (pathname : string)
    (iframeError : bool) : VNode :=
  expand (implementation iframeError) (App auth isSidebar pathname).

(** The three kinds of component the shell places. *)
Inductive Kind : Type := Chrome | Page | AuthView.

Definition kind (c : Component) : Kind :=
  match c with
  | Dashboard | PortfolioOptimization | Invoices | Contacts | Bar | Form
  | Line | FAQ | Calendar | Chatbot | MutualTear | GdpDashboard
  | CrossBorder => Page
  | SignIn | SignUp _ _ | RedirectToSignIn => AuthView
  | _ => Chrome
  end.

Definition is_page (c : Component) : bool :=
  match kind c with Page => true | _ => false end.

Definition is_auth_view (c : Component) : bool :=
  match kind c with AuthView => true | _ => false end.

(** The routed page components a tree renders. *)
Definition pages (v : VNode) : list Component :=
  filter is_page (components v).

(** The sign-in form, sign-up form and redirect a tree renders. *)
Definition auth_views (v : VNode) : list Component :=
  filter is_auth_view (components v).

(** The router reads [pathname] as the route [path]: the same characters up to
    ASCII case, then nothing but slashes. *)
Definition same_path (path pathname : string) : bool :=
  match strip_prefix (toLowerCase path) (toLowerCase pathname) with
  | Some rest => all_slashes rest
  | None => false
  end.

(** [pathname] lies under [base]: it is [base] up to ASCII case, alone or
    followed by a slash and anything. *)
Definition path_under (base pathname : string) : bool :=
  match strip_prefix (toLowerCase base) (toLowerCase pathname) with
  | Some rest => under rest
  | None => false
  end.

Definition is_pathname (s : string) : bool :=
  match s with
  | String c _ => is_slash c
  | EmptyString => false
  end.

(** A pathname without its trailing slashes. *)
Fixpoint canonical (s : string) : string :=
  match s with
  | EmptyString => EmptyString
  | String c s' =>
      match canonical s' with
      | EmptyString => if is_slash c then EmptyString else String c EmptyString
      | t => String c t
      end
  end.

(** The thirteen paths of the signed-in view, each with its page. *)
Definition signed_in_paths : list (string * Component) :=
  [ ("/", Dashboard); ("/contacts", Contacts); ("/invoices", Invoices);
    ("/portfolio", PortfolioOptimization); ("/mutualfunds", MutualTear);
    ("/gdp", GdpDashboard); ("/crossborder", CrossBorder); ("/form", Form);
    ("/bar", Bar); ("/pie", Chatbot); ("/line", Line); ("/faq", FAQ);
    ("/calendar", Calendar) ].

(** The chrome of the shell: everything it places that is neither a routed
    page nor a view of the identity provider. *)
Definition is_chrome (c : Component) : bool :=
  match kind c with Chrome => true | _ => false end.

Definition chrome (v : VNode) : list Component :=
  filter is_chrome (components v).

Definition is_click (e : Event) : bool :=
  match e with FallbackClick => true | _ => false end.

(** The one call the fallback buttons make, on the URL [u]. *)
Definition open_call (u : string) : OpenCall :=
  mkOpenCall u "_blank" "noopener,noreferrer".

(** The first route that matches, in the order [App.jsx] lists them. *)
Definition first_listed (routes : list Route) (pathname : string)
  : list VNode :=
  match find (fun r => matchPath (route_path r) pathname) routes with
  | Some r => [element r]
  | None => []
  end.

(** The regions of pathnames the route tables are read against, written
    without the matcher: only [toLowerCase] and concatenation. *)
Fixpoint slashes (k : nat) : string :=
  match k with
  | O => EmptyString
  | S k' => String "/"%char (slashes k')
  end.

(** [pathname] is [path] up to ASCII case, followed by nothing but
    slashes. *)
Definition reads_as (path pathname : string) : Prop :=
  exists k, toLowerCase pathname = toLowerCase path ++ slashes k.


(** * Properties of the dashboard pages *)

Section DashboardFacts.

Variables gdpUrl gdpMessage : string.

Local Abbreviation Scene := (scene gdpUrl gdpMessage).
Local Abbreviation Render := (render gdpUrl gdpMessage).
Local Abbreviation Dispatch := (dispatch gdpUrl gdpMessage).
Local Abbreviation Run := (run gdpUrl gdpMessage).

(** What each scene renders, read off its two branches. *)
Lemma scene_embedding (pg : DashboardPage) :
  exists h,
    iframes (Scene pg false)
      = [mkFrame (dashboard_url gdpUrl pg) h sandbox_permissions]
    /\ (forall w, h w = {| loadError := true; effects := effects w |})
    /\ panels (Scene pg false) = [].
Proof.
  destruct pg; eexists; (split; [reflexivity | split; [ | reflexivity]]);
    intros [b eff]; reflexivity.
Qed.

Lemma scene_fallback (pg : DashboardPage) :
  exists msg act,
    panels (Scene pg true) = [mkPanel msg act "Open in New Tab"]
    /\ (forall w, act w =
          {| loadError := loadError w;
             effects := effects w
               ++ [mkOpenCall (dashboard_url gdpUrl pg) "_blank"
                     "noopener,noreferrer"] |})
    /\ iframes (Scene pg true) = [].
Proof.
  destruct pg; do 2 eexists;
    (split; [reflexivity | split; [ | reflexivity]]);
    intros [b eff]; reflexivity.
Qed.

(** The whole transition table of a mounted page. *)
Lemma dispatch_table (pg : DashboardPage) (e : Event) (w : World) :
  Dispatch pg e w =
  match e, loadError w with
  | FrameError, false => Some {| loadError := true; effects := effects w |}
  | FrameError, true => None
  | FallbackClick, true =>
      Some {| loadError := true;
              effects := effects w
                ++ [mkOpenCall (dashboard_url gdpUrl pg) "_blank"
                      "noopener,noreferrer"] |}
  | FallbackClick, false => None
  | Remount, _ => Some (mount w)
  end.
Proof.
  destruct w as [b eff], e, b, pg; reflexivity.
Qed.

Lemma render_one_of_two (pg : DashboardPage) (w : World) :
  length (iframes (Render pg w)) + length (panels (Render pg w)) = 1
  /\ (length (panels (Render pg w)) = 1 <-> loadError w = true).
Proof.
  unfold render. destruct w as [b eff]; cbn [loadError].
  destruct b.
  - destruct (scene_fallback pg) as (msg & act & Hp & _ & Hf).
    rewrite Hp, Hf. cbn. intuition.
  - destruct (scene_embedding pg) as (h & Hf & _ & Hp).
    rewrite Hp, Hf. cbn. intuition discriminate.
Qed.

(** C1: at every point of a dashboard page's life (after any sequence of
    events from its first mount) the tree holds exactly one of the inline
    frame and the fallback panel, and it holds the fallback panel exactly when
    the page's load-error flag is set. *)
Theorem frame_xor_fallback :
  forall (pg : DashboardPage) (es : list Event),
    length (iframes (Render pg (Run pg es initial)))
      + length (panels (Render pg (Run pg es initial))) = 1
    /\ (length (panels (Render pg (Run pg es initial))) = 1
        <-> loadError (Run pg es initial) = true).
Proof.
  intros pg es. apply render_one_of_two.
Qed.

(** C2: on every dashboard page the fallback action calls [window.open] once,
    with target [_blank], on exactly the URL that the page passes to its
    inline frame as [src], and does nothing else. *)
Theorem fallback_opens_frame_url :
  forall (pg : DashboardPage) (w : World),
    exists f pn,
      iframes (Scene pg false) = [f]
      /\ panels (Scene pg true) = [pn]
      /\ panel_action pn w =
           {| loadError := loadError w;
              effects := effects w
                ++ [mkOpenCall (frame_src f) "_blank"
                      "noopener,noreferrer"] |}.
Proof.
  intros pg w.
  destruct (scene_embedding pg) as (h & Hf & _ & _).
  destruct (scene_fallback pg) as (msg & act & Hp & Hact & _).
  do 2 eexists. split; [exact Hf | split; [exact Hp | ]].
  cbn. apply Hact.
Qed.

Lemma flag_kept (pg : DashboardPage) (es : list Event) :
  forall w, Forall (fun e => e <> Remount) es ->
            loadError w = true -> loadError (Run pg es w) = true.
Proof.
  induction es as [ | e es IH]; intros w Hes Hw; [exact Hw | ].
  inversion Hes as [ | ? ? He Hes']; subst.
  cbn [run]. rewrite dispatch_table.
  destruct e, (loadError w) eqn:E; try discriminate; try congruence;
    apply IH; auto.
Qed.

(** C3: a dashboard page starts in [Embedding]; from [Embedding] the
    load-error event is enabled and leads to [Fallback], and no other event
    does; from [Fallback] every event other than a remount leaves the page in
    [Fallback], along any sequence of events: no handler clears the flag. *)
Theorem page_state_machine :
  forall (pg : DashboardPage),
    mode initial = Embedding
    /\ (forall w, mode (mount w) = Embedding)
    /\ (forall w, mode w = Embedding ->
          exists w', Dispatch pg FrameError w = Some w' /\ mode w' = Fallback)
    /\ (forall e w w', mode w = Embedding -> Dispatch pg e w = Some w' ->
          (mode w' = Fallback <-> e = FrameError))
    /\ (forall e w w', mode w = Fallback -> Dispatch pg e w = Some w' ->
          e <> Remount -> mode w' = Fallback)
    /\ (forall es w, mode w = Fallback ->
          Forall (fun e => e <> Remount) es ->
          mode (Run pg es w) = Fallback).
Proof.
  intros pg. unfold mode.
  split; [reflexivity | ]. split; [reflexivity | ].
  split; [ | split; [ | split]].
  - intros w Hw. rewrite dispatch_table.
    destruct (loadError w); [discriminate | ].
    eexists. split; reflexivity.
  - intros e w w' Hw. rewrite dispatch_table.
    destruct (loadError w); [discriminate | ].
    destruct e; intros H; inversion H; subst; cbn; split; congruence.
  - intros e w w' Hw. rewrite dispatch_table.
    destruct (loadError w); [ | discriminate].
    destruct e; intros H; inversion H; subst; cbn; congruence.
  - intros es w Hw Hes.
    destruct (loadError w) eqn:E; [ | discriminate].
    rewrite (flag_kept pg es w Hes E). reflexivity.
Qed.

(** C7: whenever a dashboard page renders an inline frame it renders exactly
    one, whose [src] is the URL constant of that page (written out below; the
    GDP page's is the parameter), the same in every state of the page, and
    whose [sandbox] is
    [allow-same-origin allow-scripts allow-forms allow-popups] on all four
    pages. *)
Theorem frame_url_and_sandbox :
  forall (pg : DashboardPage) (iframeError : bool),
    map (fun f => (frame_src f, frame_sandbox f))
        (iframes (Scene pg iframeError))
    = (if iframeError then []
       else [(dashboard_url gdpUrl pg,
              "allow-same-origin allow-scripts allow-forms allow-popups")])
    /\ map (dashboard_url gdpUrl)
          [NewsPage; PortfolioPage; CrossBorderPage; GdpPage]
       = [ "https://web-news-iwhdvddvapstytxauebj4u.streamlit.app/?embed=true";
           "https://ieteportfoliooptimisation.streamlit.app/?embed=true";
           "https://itemcrossbordercomplience.streamlit.app/?embed=true";
           gdpUrl ].
Proof.
  intros pg b. split; [ | reflexivity]. destruct b.
  - destruct (scene_fallback pg) as (msg & act & _ & _ & Hf).
    rewrite Hf. reflexivity.
  - destruct (scene_embedding pg) as (h & Hf & _ & _).
    rewrite Hf. reflexivity.
Qed.

(** C8: the load-error event of a dashboard page, which can only occur while
    the frame is rendered, sets the load-error flag to true and changes
    nothing else: the trace of browser effects is the same afterwards. *)
Theorem load_error_only_sets_flag :
  forall (pg : DashboardPage) (w : World),
    Dispatch pg FrameError w =
    if loadError w then None
    else Some {| loadError := true; effects := effects w |}.
Proof.
  intros pg w. rewrite dispatch_table. destruct (loadError w); reflexivity.
Qed.

End DashboardFacts.

(** C9: with the load-error flag set, the cross-border compliance page shows
    the message "Unable to embed the GDP Dashboard directly." while the button
    next to it opens the cross-border compliance URL. *)
Theorem crossborder_panel_names_gdp :
  forall (w : World),
    exists act,
      panels (Scene_CrossBorder.CrossBorder true)
        = [mkPanel "Unable to embed the GDP Dashboard directly." act
             "Open in New Tab"]
      /\ effects (act w) =
           (effects w
              ++ [mkOpenCall
                    "https://itemcrossbordercomplience.streamlit.app/?embed=true"
                    "_blank" "noopener,noreferrer"])%list
      /\ iframes (Scene_CrossBorder.CrossBorder false)
           = [mkFrame
                "https://itemcrossbordercomplience.streamlit.app/?embed=true"
                Scene_CrossBorder.handleDashboardError
                "allow-same-origin allow-scripts allow-forms allow-popups"].
Proof.
  intros w. eexists. split; [reflexivity | split; reflexivity].
Qed.

(** * Properties of the route shell *)

Lemma strip_prefix_app (pre s rest : string) :
  strip_prefix pre s = Some rest -> s = pre ++ rest.
Proof.
  revert s. induction pre as [ | a pre IH]; intros s H; cbn in H.
  - inversion H; reflexivity.
  - destruct s as [ | b s]; [discriminate | ].
    destruct (Ascii.eqb_spec a b) as [-> | ]; [ | discriminate].
    cbn. f_equal. apply IH, H.
Qed.

Lemma canonical_slashes (r : string) :
  all_slashes r = true -> canonical r = "".
Proof.
  induction r as [ | c r IH]; cbn; [reflexivity | ].
  intros H. apply andb_prop in H as [Hc Hr].
  rewrite (IH Hr), Hc. reflexivity.
Qed.

Lemma canonical_app (a r : string) :
  all_slashes r = true -> canonical (a ++ r) = canonical a.
Proof.
  intros Hr. induction a as [ | c a IH]; cbn.
  - apply canonical_slashes, Hr.
  - rewrite IH. reflexivity.
Qed.

Lemma same_path_canonical (path pathname : string) :
  same_path path pathname = true ->
  canonical (toLowerCase pathname) = canonical (toLowerCase path).
Proof.
  unfold same_path.
  destruct (strip_prefix _ _) as [rest | ] eqn:E; [ | discriminate].
  intros Hr. rewrite (strip_prefix_app _ _ _ E). apply canonical_app, Hr.
Qed.

(** Two routes whose paths differ beyond case and trailing slashes never
    match the same pathname. *)
Lemma same_path_exclusive (p q pathname : string) :
  same_path p pathname = true ->
  canonical (toLowerCase p) <> canonical (toLowerCase q) ->
  same_path q pathname = false.
Proof.
  intros Hp Hne. destruct (same_path q pathname) eqn:Hq; [ | reflexivity].
  apply same_path_canonical in Hp, Hq. congruence.
Qed.

Lemma matchPath_literal (path lit pathname : string) :
  endsWithStar path = false -> literal path = lit ->
  matchPath path pathname = same_path lit pathname.
Proof.
  intros Hs <-. unfold matchPath, same_path. rewrite Hs. reflexivity.
Qed.

Lemma matchPath_splat (path lit pathname : string) :
  endsWithStar path = true ->
  (String.eqb path "*" || String.eqb path "/*") = false ->
  literal path = lit ->
  matchPath path pathname = path_under lit pathname.
Proof.
  intros Hs Hn <-. unfold matchPath, path_under. rewrite Hs, Hn. reflexivity.
Qed.

Lemma is_slash_toLowerCase (c : ascii) :
  is_slash (toLowerCase_ascii c) = is_slash c.
Proof.
  destruct c as [[] [] [] [] [] [] [] []]; reflexivity.
Qed.

Lemma matchPath_star (pathname : string) :
  matchPath "*" pathname = is_pathname pathname.
Proof.
  unfold matchPath.
  change (toLowerCase (literal "*")) with "/".
  change (endsWithStar "*") with true.
  change (String.eqb "*" "*" || String.eqb "*" "/*") with true.
  destruct pathname as [ | c s]; cbn [toLowerCase strip_prefix is_pathname];
    [reflexivity | ].
  rewrite Ascii.eqb_sym. fold (is_slash (toLowerCase_ascii c)).
  rewrite is_slash_toLowerCase.
  destruct (is_slash c); reflexivity.
Qed.

(** How the router reads pathnames, on a few of them. *)
Example reads_case_and_trailing_slash :
  pages (App AuthSignedIn false "/Portfolio/") = [PortfolioOptimization]
  /\ pages (App AuthSignedIn false "/portfolio/x") = []
  /\ pages (App AuthSignedIn false "/settings") = []
  /\ components (App AuthSignedIn false "/settings")
     = [CssBaseline; Sidebar false; Topbar; UserButton; Button "Sign Out"].
Proof. repeat split. Qed.

Example reads_signed_out :
  auth_views (App AuthSignedOut false "/sign-in") = [SignIn]
  /\ auth_views (App AuthSignedOut false "/sign-in/factor-one") = [SignIn]
  /\ auth_views (App AuthSignedOut false "/sign-inx") = [RedirectToSignIn]
  /\ auth_views (App AuthSignedOut false "/") = [RedirectToSignIn]
  /\ components (App AuthLoading false "/") = [CssBaseline].
Proof. repeat split. Qed.

Ltac literal_routes pathname :=
  repeat match goal with
  | |- context [matchPath ?q pathname] =>
      rewrite (matchPath_literal q q pathname eq_refl eq_refl)
  end.

(** The signed-in table, route by route in rank order. *)
Lemma Routes_signedIn (pathname : string) :
  Routes signedInRoutes pathname =
  if same_path "/contacts" pathname then [component Contacts]
  else if same_path "/invoices" pathname then [component Invoices]
  else if same_path "/portfolio" pathname
       then [component PortfolioOptimization]
  else if same_path "/mutualfunds" pathname then [component MutualTear]
  else if same_path "/gdp" pathname then [component GdpDashboard]
  else if same_path "/crossborder" pathname then [component CrossBorder]
  else if same_path "/form" pathname then [component Form]
  else if same_path "/bar" pathname then [component Bar]
  else if same_path "/pie" pathname then [component Chatbot]
  else if same_path "/line" pathname then [component Line]
  else if same_path "/faq" pathname then [component FAQ]
  else if same_path "/calendar" pathname then [component Calendar]
  else if same_path "/" pathname then [component Dashboard]
  else [].
Proof.
  unfold Routes.
  replace (rankRouteBranches signedInRoutes)
    with (tl signedInRoutes ++ [hd (mkRoute "" (component Topbar)) signedInRoutes])%list
    by reflexivity.
  cbn [signedInRoutes tl hd app find route_path element].
  literal_routes pathname.
  repeat match goal with
  | |- context [same_path ?q pathname] =>
      destruct (same_path q pathname); [reflexivity | ]
  end.
  reflexivity.
Qed.

Lemma pages_signedIn_routed (sb : bool) (pathname : string) (c : Component) :
  Routes signedInRoutes pathname = [component c] -> is_page c = true ->
  pages (App AuthSignedIn sb pathname) = [c].
Proof.
  intros H Hc. unfold App. rewrite H. unfold pages, components.
  cbn. rewrite Hc. reflexivity.
Qed.

Lemma pages_signedIn_blank (sb : bool) (pathname : string) :
  Routes signedInRoutes pathname = [] ->
  pages (App AuthSignedIn sb pathname) = [].
Proof.
  intros H. unfold App. rewrite H. reflexivity.
Qed.

Lemma signed_in_paths_are_pages (pth : string) (c : Component) :
  In (pth, c) signed_in_paths -> is_page c = true.
Proof.
  cbn. intros H.
  repeat (destruct H as [H | H]; [inversion H; reflexivity | ]).
  contradiction.
Qed.

Ltac settle_route H pathname :=
  repeat match goal with
  | |- context [same_path ?q pathname] =>
      first [ rewrite H
            | rewrite (same_path_exclusive _ q pathname H)
                by (vm_compute; discriminate) ]
  end.

(** A pathname the router reads as one of the thirteen paths gets the page
    of that path. *)
Lemma Routes_signedIn_at (pathname pth : string) (c : Component) :
  In (pth, c) signed_in_paths -> same_path pth pathname = true ->
  Routes signedInRoutes pathname = [component c].
Proof.
  intros Hin H. rewrite Routes_signedIn. cbn in Hin.
  repeat (destruct Hin as [Hin | Hin];
          [inversion Hin; subst; settle_route H pathname; reflexivity | ]).
  contradiction.
Qed.

(** Whatever the pathname, the signed-in table yields nothing or the page of
    one of the thirteen paths. *)
Lemma Routes_signedIn_cases (pathname : string) :
  Routes signedInRoutes pathname = []
  \/ exists pth c, In (pth, c) signed_in_paths
                   /\ same_path pth pathname = true
                   /\ Routes signedInRoutes pathname = [component c].
Proof.
  rewrite Routes_signedIn.
  repeat match goal with
  | |- context [if same_path ?q pathname then _ else _] =>
      destruct (same_path q pathname) eqn:?;
      [ right; exists q; eexists; split; [ | split; [eassumption | reflexivity]];
        cbn; tauto | ]
  end.
  left; reflexivity.
Qed.

Lemma canonical_length (s : string) :
  String.length (canonical s) <= String.length s.
Proof.
  induction s as [ | c s IH]; cbn; [lia | ].
  destruct (canonical s); [destruct (is_slash c) | ]; cbn in *; lia.
Qed.

Lemma length_append (a b : string) :
  String.length (a ++ b) = String.length a + String.length b.
Proof.
  induction a as [ | c a IH]; cbn; [reflexivity | rewrite IH; reflexivity].
Qed.

Lemma append_empty (a : string) : a ++ "" = a.
Proof.
  induction a as [ | c a IH]; cbn; [reflexivity | rewrite IH; reflexivity].
Qed.

(** On a pathname in lower case without trailing slash the router's reading
    is plain equality with the route's path. *)
Lemma same_path_literal (pth pathname : string) (c : Component) :
  In (pth, c) signed_in_paths -> same_path pth pathname = true ->
  toLowerCase pathname = pathname -> canonical pathname = pathname ->
  In pathname (map fst signed_in_paths).
Proof.
  intros Hin H Hlow Hcan.
  assert (Hp : toLowerCase pth = pth).
  { cbn in Hin.
    repeat (destruct Hin as [Hin | Hin]; [inversion Hin; reflexivity | ]).
    contradiction. }
  unfold same_path in H. rewrite Hp, Hlow in H.
  destruct (strip_prefix pth pathname) as [rest | ] eqn:E; [ | discriminate].
  apply strip_prefix_app in E.
  assert (Hrest : rest = "").
  { pose proof (canonical_length pth) as Hlen.
    rewrite <- (canonical_app pth rest H), <- E, Hcan, E, length_append in Hlen.
    destruct rest; [reflexivity | cbn in Hlen; lia]. }
  subst rest. rewrite append_empty in E. subst pathname.
  apply (in_map fst) in Hin. exact Hin.
Qed.

Lemma toLowerCase_app (a b : string) :
  toLowerCase (a ++ b) = toLowerCase a ++ toLowerCase b.
Proof.
  induction a as [ | c a IH]; cbn; [reflexivity | rewrite IH; reflexivity].
Qed.

Lemma strip_prefix_complete (pre rest : string) :
  strip_prefix pre (pre ++ rest) = Some rest.
Proof.
  induction pre as [ | a pre IH]; cbn; [reflexivity | ].
  rewrite Ascii.eqb_refl. exact IH.
Qed.

Lemma strip_prefix_iff (pre s rest : string) :
  strip_prefix pre s = Some rest <-> s = pre ++ rest.
Proof.
  split; [apply strip_prefix_app | intros ->; apply strip_prefix_complete].
Qed.

Lemma all_slashes_iff (r : string) :
  all_slashes r = true <-> exists k, r = slashes k.
Proof.
  split.
  - induction r as [ | c r IH]; cbn; intros H.
    + exists 0. reflexivity.
    + apply andb_prop in H as [Hc Hr]. destruct (IH Hr) as [k ->].
      apply Ascii.eqb_eq in Hc. subst c. exists (S k). reflexivity.
  - intros [k ->]. induction k as [ | k IH]; cbn; [reflexivity | exact IH].
Qed.


(** The matcher's reading of a literal route is [reads_as]. *)
Lemma same_path_reads_as (path pathname : string) :
  same_path path pathname = true <-> reads_as path pathname.
Proof.
  unfold same_path, reads_as. split.
  - destruct (strip_prefix _ _) as [rest | ] eqn:E; [ | discriminate].
    intros H. apply all_slashes_iff in H as [k ->].
    exists k. apply strip_prefix_app, E.
  - intros [k E]. rewrite E, strip_prefix_complete.
    apply all_slashes_iff. exists k. reflexivity.
Qed.


(** C5 (as amended): signed in, the routed pages are exactly those of the
    thirteen paths [/], [/contacts], [/invoices], [/portfolio],
    [/mutualfunds], [/gdp], [/crossborder], [/form], [/bar], [/pie], [/line],
    [/faq], [/calendar]: at each of these paths, and at every pathname that
    is one of them up to ASCII case and trailing slashes, exactly the page of
    that path renders; no pathname renders more than one page; and no page
    renders at any other pathname.  In particular a pathname in lower case
    without trailing slash that is not one of the thirteen renders none. *)
Theorem signed_in_route_table :
  forall (isSidebar : bool) (pathname : string),
    Forall (fun pc => pages (App AuthSignedIn isSidebar (fst pc)) = [snd pc])
      signed_in_paths
    /\ (forall pth c, In (pth, c) signed_in_paths ->
          reads_as pth pathname ->
          pages (App AuthSignedIn isSidebar pathname) = [c])
    /\ length (pages (App AuthSignedIn isSidebar pathname)) <= 1
    /\ (forall c, In c (pages (App AuthSignedIn isSidebar pathname)) ->
          exists pth, In (pth, c) signed_in_paths
                      /\ reads_as pth pathname)
    /\ ((forall pth c, In (pth, c) signed_in_paths ->
           ~ reads_as pth pathname) ->
        pages (App AuthSignedIn isSidebar pathname) = [])
    /\ (toLowerCase pathname = pathname -> canonical pathname = pathname ->
        ~ In pathname (map fst signed_in_paths) ->
        pages (App AuthSignedIn isSidebar pathname) = []).
Proof.
  intros sb pathname.
  assert (Hblank : (forall pth c, In (pth, c) signed_in_paths ->
                      same_path pth pathname = false) ->
                   pages (App AuthSignedIn sb pathname) = []).
  { intros Hnone.
    destruct (Routes_signedIn_cases pathname) as [E | (pth & c & Hin & H & E)].
    - apply pages_signedIn_blank, E.
    - rewrite (Hnone pth c Hin) in H. discriminate. }
  split; [ | split; [ | split; [ | split; [ | split]]]].
  - repeat constructor.
  - intros pth c Hin H. apply same_path_reads_as in H.
    apply pages_signedIn_routed.
    + eapply Routes_signedIn_at; eassumption.
    + eapply signed_in_paths_are_pages; eassumption.
  - destruct (Routes_signedIn_cases pathname) as [E | (pth & c & Hin & H & E)].
    + rewrite (pages_signedIn_blank sb pathname E). cbn. lia.
    + rewrite (pages_signedIn_routed sb pathname c E
                 (signed_in_paths_are_pages pth c Hin)). cbn. lia.
  - intros c Hc.
    destruct (Routes_signedIn_cases pathname) as [E | (pth & c' & Hin & H & E)].
    + rewrite (pages_signedIn_blank sb pathname E) in Hc. contradiction.
    + rewrite (pages_signedIn_routed sb pathname c' E
                 (signed_in_paths_are_pages pth c' Hin)) in Hc.
      destruct Hc as [<- | []]. exists pth.
      split; [assumption | apply same_path_reads_as, H].
  - intros Hnone. apply Hblank. intros pth c Hin.
    destruct (same_path pth pathname) eqn:H; [exfalso | reflexivity].
    apply (Hnone pth c Hin). apply same_path_reads_as, H.
  - intros Hlow Hcan Hother. apply Hblank. intros pth c Hin.
    destruct (same_path pth pathname) eqn:H; [exfalso | reflexivity].
    apply Hother. apply (same_path_literal pth pathname c Hin H Hlow Hcan).
Qed.

(** C5 as first stated fails: [/pie/] is none of the thirteen paths, yet the
    router reads it as [/pie] and the chatbot page renders. *)
Lemma signed_in_other_path_renders :
  ~ (~ In "/pie/" (map fst signed_in_paths) ->
     pages (App AuthSignedIn false "/pie/") = []).
Proof.
  intros H.
  assert (Hother : ~ In "/pie/" (map fst signed_in_paths)).
  { cbn. intros Hin.
    repeat (destruct Hin as [Hin | Hin]; [discriminate Hin | ]).
    contradiction. }
  specialize (H Hother). discriminate H.
Qed.

(** The signed-out table in rank order: the two splat routes, then the
    catch-all. *)
Lemma Routes_signedOut (pathname : string) :
  Routes signedOutRoutes pathname =
  if path_under "/sign-in" pathname then [component SignIn]
  else if path_under "/sign-up" pathname
       then [component (SignUp "/sign-up" signUpFields_App)]
  else if is_pathname pathname then [component RedirectToSignIn]
  else [].
Proof.
  unfold Routes.
  replace (rankRouteBranches signedOutRoutes) with signedOutRoutes
    by reflexivity.
  cbn [signedOutRoutes find route_path element].
  rewrite (matchPath_splat "/sign-in/*" "/sign-in" pathname eq_refl eq_refl eq_refl).
  rewrite (matchPath_splat "/sign-up/*" "/sign-up" pathname eq_refl eq_refl eq_refl).
  rewrite matchPath_star.
  destruct (path_under "/sign-in" pathname); [reflexivity | ].
  destruct (path_under "/sign-up" pathname); [reflexivity | ].
  destruct (is_pathname pathname); reflexivity.
Qed.








(** C10: signed in, a navigation to [/pie] renders the [Chatbot] component
    and one to [/line] renders the [Line] component, which is the static
    "About Us" page: its tree is the same in every state, holds the header
    titled "About Us", and has no frame and no button. *)
Theorem pie_is_chatbot_line_is_about :
  forall (isSidebar : bool) (iframeError : bool),
    pages (App AuthSignedIn isSidebar "/pie") = [Chatbot]
    /\ pages (App AuthSignedIn isSidebar "/line") = [Line]
    /\ (forall pathname, same_path "/pie" pathname = true ->
          pages (App AuthSignedIn isSidebar pathname) = [Chatbot])
    /\ (forall pathname, same_path "/line" pathname = true ->
          pages (App AuthSignedIn isSidebar pathname) = [Line])
    /\ implementation iframeError Line = Some Scene_Line.Line
    /\ components Scene_Line.Line = [Header "About Us"]
    /\ iframes Scene_Line.Line = []
    /\ buttons Scene_Line.Line = [].
Proof.
  intros sb b.
  split; [reflexivity | ]. split; [reflexivity | ].
  split; [ | split; [ | repeat split]].
  - intros pathname H. apply pages_signedIn_routed; [ | reflexivity].
    apply (Routes_signedIn_at pathname "/pie"); [cbn; tauto | exact H].
  - intros pathname H. apply pages_signedIn_routed; [ | reflexivity].
    apply (Routes_signedIn_at pathname "/line"); [cbn; tauto | exact H].
Qed.

(** C4: signed in at [/portfolio], the shell renders the portfolio
    optimiser, whose freshly mounted tree holds one inline frame on the fixed
    URL of that scene; the load-error handler of that frame sets the flag, and
    the tree then holds no frame but the paragraph "Unable to embed the
    Portfolio Optimizer directly" (followed by a full stop) with a button
    labelled "Open in New Tab". *)
Theorem portfolio_scenario :
  forall (isSidebar : bool) (w : World),
    pages (App AuthSignedIn isSidebar "/portfolio") = [PortfolioOptimization]
    /\ exists f act,
         iframes (screen AuthSignedIn isSidebar "/portfolio"
                    (loadError (mount w))) = [f]
         /\ frame_src f
            = "https://ieteportfoliooptimisation.streamlit.app/?embed=true"
         /\ frame_onError f (mount w)
            = {| loadError := true; effects := effects w |}
         /\ iframes (screen AuthSignedIn isSidebar "/portfolio"
                       (loadError (frame_onError f (mount w)))) = []
         /\ panels (screen AuthSignedIn isSidebar "/portfolio"
                      (loadError (frame_onError f (mount w))))
            = [mkPanel
                 ("Unable to embed the Portfolio Optimizer directly" ++ ".")
                 act "Open in New Tab"]
         /\ texts "p" (screen AuthSignedIn isSidebar "/portfolio"
                         (loadError (frame_onError f (mount w))))
            = ["Unable to embed the Portfolio Optimizer directly."].
Proof.
  intros sb w. split; [reflexivity | ].
  do 2 eexists. split; [reflexivity | ].
  repeat split.
Qed.

(** * Further properties of the dashboard pages *)

Section DashboardLife.

Variables gdpUrl gdpMessage : string.

Local Abbreviation Render := (render gdpUrl gdpMessage).
Local Abbreviation Run := (run gdpUrl gdpMessage).
Local Abbreviation Url := (dashboard_url gdpUrl).

(** X1: whatever happens to a dashboard page, from any state, the only
    browser effects it adds are calls [window.open(url, "_blank",
    "noopener,noreferrer")] on its own URL, at most one per click on the
    fallback button. *)
Theorem effects_are_own_opens :
  forall (pg : DashboardPage) (es : list Event) (w : World),
    exists k,
      k <= length (filter is_click es)
      /\ effects (Run pg es w)
         = (effects w ++ repeat (open_call (Url pg)) k)%list.
Proof.
  intros pg es. induction es as [ | e es IH]; intros w.
  - exists 0. split; [cbn; lia | cbn; rewrite app_nil_r; reflexivity].
  - cbn [run]. rewrite dispatch_table.
    destruct e, (loadError w) eqn:E; cbn [filter is_click length];
      match goal with
      | |- context [Run pg es ?w'] => destruct (IH w') as (k & Hk & Hk')
      end.
    + exists k. split; [lia | exact Hk'].
    + exists k. split; [lia | exact Hk'].
    + exists (S k). split; [lia | ].
      rewrite Hk'. cbn [effects repeat].
      rewrite <- app_assoc. reflexivity.
    + exists k. split; [lia | exact Hk'].
    + exists k. split; [lia | exact Hk'].
    + exists k. split; [lia | exact Hk'].
Qed.

(** X2: as long as the frame reports no load error, a page that shows its
    frame keeps showing it and opens nothing, whatever else happens (clicks
    have no target, remounts change nothing). *)
Theorem nothing_opens_before_an_error :
  forall (pg : DashboardPage) (es : list Event) (w : World),
    loadError w = false ->
    Forall (fun e => e <> FrameError) es ->
    loadError (Run pg es w) = false
    /\ effects (Run pg es w) = effects w
    /\ panels (Render pg (Run pg es w)) = [].
Proof.
  intros pg es. induction es as [ | e es IH]; intros w Hw Hes.
  - cbn [run]. repeat split; try assumption.
    unfold render. rewrite Hw.
    destruct (scene_embedding gdpUrl gdpMessage pg) as (h & _ & _ & Hp).
    exact Hp.
  - inversion Hes as [ | ? ? He Hes']; subst.
    cbn [run]. rewrite dispatch_table. rewrite Hw.
    destruct e; [congruence | apply IH; assumption | ].
    apply (IH (mount w)); [reflexivity | assumption].
Qed.

(** X3: in the fallback state the button can be clicked again and again:
    [n] clicks open the page's URL [n] times in new tabs and leave the page
    exactly as it was rendered. *)
Theorem clicks_repeat :
  forall (pg : DashboardPage) (n : nat) (w : World),
    loadError w = true ->
    Run pg (repeat FallbackClick n) w
    = {| loadError := true;
         effects := effects w ++ repeat (open_call (Url pg)) n |}
    /\ Render pg (Run pg (repeat FallbackClick n) w) = Render pg w.
Proof.
  intros pg n.
  assert (H : forall w, loadError w = true ->
            Run pg (repeat FallbackClick n) w
            = {| loadError := true;
                 effects := effects w ++ repeat (open_call (Url pg)) n |}).
  { induction n as [ | n IH]; intros [b eff] Hw; cbn in Hw; subst b.
    - cbn. rewrite app_nil_r. reflexivity.
    - cbn [repeat run]. rewrite dispatch_table. cbn [loadError effects].
      rewrite IH by reflexivity. cbn [effects].
      rewrite <- app_assoc. reflexivity. }
  intros w Hw. split; [apply H, Hw | ].
  unfold render. rewrite (H w Hw), Hw. reflexivity.
Qed.

End DashboardLife.

Lemma nothing_opens_before_an_error_witness :
  loadError initial = false
  /\ Forall (fun e => e <> FrameError) [FallbackClick; Remount; FallbackClick]
  /\ effects (run "gdp-url" "gdp-message" CrossBorderPage
                [FallbackClick; Remount; FallbackClick] initial) = [].
Proof.
  assert (H : Forall (fun e => e <> FrameError)
                [FallbackClick; Remount; FallbackClick])
    by (repeat constructor; discriminate).
  split; [reflexivity | split; [exact H | ]].
  apply (nothing_opens_before_an_error "gdp-url" "gdp-message" CrossBorderPage
           [FallbackClick; Remount; FallbackClick] initial eq_refl H).
Defined.

Lemma clicks_repeat_witness :
  loadError {| loadError := true; effects := [] |} = true
  /\ effects (run "gdp-url" "gdp-message" NewsPage (repeat FallbackClick 2)
                {| loadError := true; effects := [] |})
     = [open_call Scene_NewsBoard.stockNewsUrl;
        open_call Scene_NewsBoard.stockNewsUrl].
Proof.
  split; [reflexivity | ].
  rewrite (proj1 (clicks_repeat "gdp-url" "gdp-message" NewsPage 2
                    {| loadError := true; effects := [] |} eq_refl)).
  reflexivity.
Defined.


(** * Further properties of the route shell *)

Lemma page_not_chrome (c : Component) :
  is_page c = true -> is_chrome c = false /\ is_auth_view c = false.
Proof.
  unfold is_page, is_chrome, is_auth_view.
  destruct (kind c); intros H; try discriminate; split; reflexivity.
Qed.

Lemma signedOut_routed (pathname : string) :
  Routes signedOutRoutes pathname = []
  \/ exists c, is_auth_view c = true
               /\ Routes signedOutRoutes pathname = [component c].
Proof.
  rewrite Routes_signedOut.
  destruct (path_under "/sign-in" pathname);
    [right; eexists; split; [ | reflexivity]; reflexivity | ].
  destruct (path_under "/sign-up" pathname);
    [right; eexists; split; [ | reflexivity]; reflexivity | ].
  destruct (is_pathname pathname);
    [right; eexists; split; [ | reflexivity]; reflexivity | ].
  left; reflexivity.
Qed.

(** X4: nothing of the signed-in view reaches a visitor who is not signed
    in: whatever the pathname, while the session is loading or signed out the
    shell renders no page component and none of the sidebar, the top bar, the
    user button and the sign-out button; while loading it renders nothing
    at all besides the CSS baseline. *)
Theorem pages_need_sign_in :
  forall (auth : AuthState) (isSidebar : bool) (pathname : string),
    auth <> AuthSignedIn ->
    pages (App auth isSidebar pathname) = []
    /\ chrome (App auth isSidebar pathname) = [CssBaseline]
    /\ (auth = AuthLoading ->
        components (App auth isSidebar pathname) = [CssBaseline]).
Proof.
  intros auth sb pathname Hauth.
  destruct auth; [ | congruence | ].
  - repeat split.
  - split; [ | split; [ | discriminate]].
    + destruct (signedOut_routed pathname) as [E | (c & Hc & E)];
        unfold App; rewrite E; [reflexivity | ].
      unfold pages, components. cbn.
      unfold is_page, is_auth_view in *. destruct (kind c);
        try discriminate; reflexivity.
    + destruct (signedOut_routed pathname) as [E | (c & Hc & E)];
        unfold App; rewrite E; [reflexivity | ].
      unfold chrome, components. cbn.
      unfold is_chrome, is_auth_view in *. destruct (kind c);
        try discriminate; reflexivity.
Qed.

Lemma pages_need_sign_in_witness :
  AuthSignedOut <> AuthSignedIn
  /\ pages (App AuthSignedOut true "/portfolio") = [].
Proof.
  assert (H : AuthSignedOut <> AuthSignedIn) by discriminate.
  split; [exact H | ].
  apply (pages_need_sign_in AuthSignedOut true "/portfolio" H).
Defined.

(** X5: a signed-in user gets the whole chrome at every pathname, mapped or
    not: the CSS baseline, the sidebar with the current [isSidebar] flag, the
    top bar, the user button and the sign-out button; and never the sign-in
    form, the sign-up form or the redirect. *)
Theorem chrome_at_every_path :
  forall (isSidebar : bool) (pathname : string),
    chrome (App AuthSignedIn isSidebar pathname)
    = [CssBaseline; Sidebar isSidebar; Topbar; UserButton; Button "Sign Out"]
    /\ auth_views (App AuthSignedIn isSidebar pathname) = [].
Proof.
  intros sb pathname.
  destruct (Routes_signedIn_cases pathname) as [E | (pth & c & Hin & _ & E)];
    unfold App; rewrite E; [split; reflexivity | ].
  destruct (page_not_chrome c (signed_in_paths_are_pages pth c Hin))
    as [Hc Hv].
  unfold chrome, auth_views, components. cbn. rewrite Hc, Hv.
  split; reflexivity.
Qed.

Lemma In_signedInRoutes (r : Route) :
  In r signedInRoutes ->
  exists c, In (route_path r, c) signed_in_paths
            /\ r = mkRoute (route_path r) (component c).
Proof.
  cbn. intros H.
  repeat (destruct H as [H | H];
          [subst r; eexists; split; [ | reflexivity]; cbn; tauto | ]).
  contradiction.
Qed.

Lemma listed_literal (pth : string) (c : Component) (pathname : string) :
  In (pth, c) signed_in_paths ->
  matchPath pth pathname = same_path pth pathname
  /\ canonical (toLowerCase pth) = canonical pth.
Proof.
  cbn. intros H.
  repeat (destruct H as [H | H];
          [inversion H; subst; split;
           [apply matchPath_literal; reflexivity | reflexivity] | ]).
  contradiction.
Qed.

Lemma listed_functional (pth : string) (c c' : Component) :
  In (pth, c) signed_in_paths -> In (pth, c') signed_in_paths -> c = c'.
Proof.
  cbn. intros H H'.
  repeat (destruct H as [H | H];
          [inversion H; subst;
           repeat (destruct H' as [H' | H'];
                   [inversion H'; reflexivity | ]);
           contradiction | ]).
  contradiction.
Qed.

Lemma listed_canonical_injective (p q : string) (c d : Component) :
  In (p, c) signed_in_paths -> In (q, d) signed_in_paths ->
  canonical p = canonical q -> p = q.
Proof.
  cbn. intros H H'.
  repeat (destruct H as [H | H];
          [inversion H; subst;
           repeat (destruct H' as [H' | H'];
                   [inversion H'; subst; cbn;
                    intros E; first [reflexivity | discriminate E] | ]);
           contradiction | ]).
  contradiction.
Qed.

(** X6: the signed-in route table is unambiguous: no pathname matches two of
    its routes, so the page shown does not depend on how the router ranks
    them and is the first match in the order [App.jsx] lists the routes; the
    signed-out table, whose catch-all comes last, reads in listed order
    too. *)
Theorem routes_read_in_listed_order :
  forall (pathname : string),
    (forall r r', In r signedInRoutes -> In r' signedInRoutes ->
       matchPath (route_path r) pathname = true ->
       matchPath (route_path r') pathname = true -> r = r')
    /\ Routes signedInRoutes pathname = first_listed signedInRoutes pathname
    /\ Routes signedOutRoutes pathname
       = first_listed signedOutRoutes pathname.
Proof.
  intros pathname. split; [ | split].
  - intros r r' Hr Hr' Hm Hm'.
    destruct (In_signedInRoutes r Hr) as (c & Hc & Er).
    destruct (In_signedInRoutes r' Hr') as (c' & Hc' & Er').
    destruct (listed_literal _ _ pathname Hc) as [L K].
    destruct (listed_literal _ _ pathname Hc') as [L' K'].
    rewrite L in Hm. rewrite L' in Hm'.
    apply same_path_canonical in Hm, Hm'.
    assert (Heq : route_path r = route_path r').
    { apply (listed_canonical_injective _ _ c c' Hc Hc'). congruence. }
    rewrite Er, Er'. rewrite Heq in Hc |- *.
    rewrite (listed_functional _ _ _ Hc Hc'). reflexivity.
  - rewrite Routes_signedIn. unfold first_listed.
    cbn [signedInRoutes find route_path element].
    literal_routes pathname.
    destruct (same_path "/" pathname) eqn:H.
    + settle_route H pathname. reflexivity.
    + repeat match goal with
      | |- context [same_path ?q pathname] =>
          destruct (same_path q pathname); [reflexivity | ]
      end.
      reflexivity.
  - reflexivity.
Qed.

Lemma all_slashes_toLowerCase (s : string) :
  all_slashes (toLowerCase s) = all_slashes s.
Proof.
  induction s as [ | c s IH]; cbn; [reflexivity | ].
  rewrite is_slash_toLowerCase, IH. reflexivity.
Qed.

(** X7: the signed-in table has no route for the sign-in and sign-up flows:
    a signed-in user whose pathname is still under [/sign-in] or [/sign-up]
    gets no page component (only the chrome). *)
Theorem signed_in_on_auth_path_is_blank :
  forall (isSidebar : bool) (pathname : string),
    path_under "/sign-in" pathname = true
    \/ path_under "/sign-up" pathname = true ->
    pages (App AuthSignedIn isSidebar pathname) = [].
Proof.
  intros sb pathname H. apply pages_signedIn_blank.
  rewrite Routes_signedIn. unfold path_under in H. unfold same_path.
  destruct H as [H | H];
    destruct (strip_prefix _ (toLowerCase pathname)) as [rest | ] eqn:E;
    try discriminate;
    apply strip_prefix_app in E; rewrite E; reflexivity.
Qed.

Lemma signed_in_on_auth_path_is_blank_witness :
  (path_under "/sign-in" "/sign-in/sso-callback" = true
   \/ path_under "/sign-up" "/sign-in/sso-callback" = true)
  /\ pages (App AuthSignedIn false "/sign-in/sso-callback") = [].
Proof.
  assert (H : path_under "/sign-in" "/sign-in/sso-callback" = true
              \/ path_under "/sign-up" "/sign-in/sso-callback" = true)
    by (left; reflexivity).
  split; [exact H | ].
  apply (signed_in_on_auth_path_is_blank false "/sign-in/sso-callback" H).
Defined.

(** Below a listed path no listed path matches. *)
Lemma same_path_below (q pth seg : string) :
  In q (map fst signed_in_paths) -> In pth (map fst signed_in_paths) ->
  all_slashes seg = false ->
  same_path q (pth ++ "/" ++ seg) = false.
Proof.
  intros Hq Hp Hseg. unfold same_path. rewrite !toLowerCase_app.
  rewrite <- all_slashes_toLowerCase in Hseg.
  revert Hseg. generalize (toLowerCase seg). intros s Hs.
  cbn in Hq, Hp.
  repeat (destruct Hq as [Hq | Hq];
          [subst q;
           repeat (destruct Hp as [Hp | Hp];
                   [subst pth; first [reflexivity | exact Hs] | ]);
           contradiction | ]).
  contradiction.
Qed.

(** X8: the signed-in routes are flat: below any of the thirteen paths, a
    pathname with a further segment (a slash and then something that is not
    only slashes) renders no page component. *)
Theorem no_nested_routes :
  forall (isSidebar : bool) (pth seg : string) (c : Component),
    In (pth, c) signed_in_paths ->
    all_slashes seg = false ->
    pages (App AuthSignedIn isSidebar (pth ++ "/" ++ seg)) = [].
Proof.
  intros sb pth seg c Hin Hseg. apply pages_signedIn_blank.
  apply (in_map fst) in Hin. cbn [fst] in Hin.
  rewrite Routes_signedIn.
  repeat match goal with
  | |- context [same_path ?q (pth ++ "/" ++ seg)] =>
      rewrite (same_path_below q pth seg) by (assumption || (cbn; tauto))
  end.
  reflexivity.
Qed.

Lemma no_nested_routes_witness :
  In ("/invoices", Invoices) signed_in_paths
  /\ all_slashes "42" = false
  /\ pages (App AuthSignedIn false "/invoices/42") = [].
Proof.
  assert (H : In ("/invoices", Invoices) signed_in_paths) by (cbn; tauto).
  split; [exact H | split; [reflexivity | ]].
  apply (no_nested_routes false "/invoices" "42" Invoices H eq_refl).
Defined.

(** X9: routing, rendering and the scene's state compose: at any pathname
    the router reads as [/portfolio] (or [/crossborder]) the tree on screen
    holds the tree of [PortfolioOptimization] (or [CrossBorder]) in the
    scene's current state, so its frame while embedding and its fallback
    panel after a load error. *)
Theorem routed_scene_on_screen :
  forall (isSidebar : bool) (pathname : string) (iframeError : bool),
    (reads_as "/portfolio" pathname ->
       In (Scene_PortfolioOptimization.PortfolioOptimization iframeError)
          (nodes (screen AuthSignedIn isSidebar pathname iframeError)))
    /\ (reads_as "/crossborder" pathname ->
          In (Scene_CrossBorder.CrossBorder iframeError)
             (nodes (screen AuthSignedIn isSidebar pathname iframeError))).
Proof.
  intros sb pathname b. split; intros H; apply same_path_reads_as in H.
  - assert (E : Routes signedInRoutes pathname
                = [component PortfolioOptimization])
      by (apply (Routes_signedIn_at pathname "/portfolio");
          [cbn; tauto | exact H]).
    unfold screen, App. rewrite E. cbn. tauto.
  - assert (E : Routes signedInRoutes pathname = [component CrossBorder])
      by (apply (Routes_signedIn_at pathname "/crossborder");
          [cbn; tauto | exact H]).
    unfold screen, App. rewrite E. cbn. tauto.
Qed.
